(** * linted-paths: runtime path validators, project-root resolver,
    static path checker and language-service shim.

    Strings are modelled as Stdlib [string]s whose characters are 8-bit
    code units (the code units 0x00-0xFF of a JavaScript string).  Paths
    are POSIX paths, as on the platforms the package targets. *)

From Stdlib Require Import String Ascii List Bool Arith Lia.
Import ListNotations.
Open Scope string_scope.
Open Scope bool_scope.

(** ** Thrown errors *)

(** A computation that returns a value or throws an [Error] carrying a
    message. *)
Inductive res (A : Type) : Type :=
| Ok (a : A)
| Throw (msg : string).
Arguments Ok {A} a.
Arguments Throw {A} msg.

(** ** Characters *)

Definition code (c : ascii) : nat := nat_of_ascii c.

(** JavaScript's [String.prototype.trim] white space (WhiteSpace and
    LineTerminator) restricted to code units below 256: TAB, LF, VT, FF,
    CR, SPACE and NO-BREAK SPACE. *)
Definition is_js_space (c : ascii) : bool :=
  let n := code c in
  (((9 <=? n) && (n <=? 13)) || (n =? 32) || (n =? 160))%nat.

Fixpoint drop_spaces (l : list ascii) : list ascii :=
  match l with
  | [] => []
  | c :: r => if is_js_space c then drop_spaces r else l
  end.

(** [s.trim()] *)
Definition trim (s : string) : string :=
  string_of_list_ascii
    (rev (drop_spaces (rev (drop_spaces (list_ascii_of_string s))))).

(** One character of the regular-expression class of the source: one of
    [< > : | ? *], the double quote (code 34), or a code in 0x00-0x1F. *)
Definition is_invalid_char (c : ascii) : bool :=
  let n := code c in
  ((n =? 60) || (n =? 62) || (n =? 58) || (n =? 34) || (n =? 124)
   || (n =? 63) || (n =? 42) || (n <=? 31))%nat.

(** [invalidChars.test(s)] *)
Definition invalidChars_test (s : string) : bool :=
  existsb is_invalid_char (list_ascii_of_string s).

(** [s.startsWith(p)] *)
Definition startsWith (s p : string) : bool := String.prefix p s.

(** ** POSIX paths (Node's [path] module) *)

(** Splitting at every ['/']: the pieces between slashes, empty ones
    included. *)
Fixpoint split_slash (s : string) : list string :=
  match s with
  | EmptyString => [""]
  | String c r =>
      if Ascii.eqb c "/" then "" :: split_slash r
      else match split_slash r with
           | h :: t => String c h :: t
           | [] => [String c ""]
           end
  end.

(** One step of Node's [normalizeString] on an absolute path: empty and
    ["."] segments vanish, [".."] drops the last kept segment (and nothing
    at the root). *)
Definition norm_step (acc : list string) (seg : string) : list string :=
  if String.eqb seg "" || String.eqb seg "." then acc
  else if String.eqb seg ".." then removelast acc
  else acc ++ [seg].

Definition normsegs (segs : list string) : list string :=
  fold_left norm_step segs [].

(** The segments of an absolute path after normalisation. *)
Definition abs_segs (p : string) : list string := normsegs (split_slash p).

Definition of_segs (segs : list string) : string :=
  "/" ++ String.concat "/" segs.

(** [path.isAbsolute(p)] *)
Definition isAbsolute (p : string) : bool := startsWith p "/".

(** [path.resolve(root, p)] for an absolute [root]: an absolute [p]
    replaces the root; the result is normalised, without trailing
    slash. *)
Definition resolve (root p : string) : string :=
  of_segs (abs_segs (if isAbsolute p then p else root ++ "/" ++ p)).

Definition is_slash (c : ascii) : bool := Ascii.eqb c "/".

Fixpoint drop_while (f : ascii -> bool) (l : list ascii) : list ascii :=
  match l with
  | [] => []
  | c :: r => if f c then drop_while f r else l
  end.

(** One step of Node's [normalizeString] on a relative path
    ([allowAboveRoot]): a [".."] with nothing to drop, or after another
    [".."], is kept. *)
Definition norm_step_rel (acc : list string) (seg : string) : list string :=
  if String.eqb seg "" || String.eqb seg "." then acc
  else if String.eqb seg ".." then
    match rev acc with
    | [] => acc ++ [".."]
    | last :: _ => if String.eqb last ".." then acc ++ [".."] else removelast acc
    end
  else acc ++ [seg].

(** [path.normalize(p)] for a [p] without trailing slash. *)
Definition normalize (p : string) : string :=
  if String.eqb p "" then "."
  else if isAbsolute p then of_segs (abs_segs p)
  else match fold_left norm_step_rel (split_slash p) [] with
       | [] => "."
       | segs => String.concat "/" segs
       end.

(** [path.join(dir, name)] for a non-empty [name] without slashes: the
    non-empty arguments joined by ['/'], then normalised. *)
Definition join (dir name : string) : string :=
  if String.eqb dir "" then normalize name else normalize (dir ++ "/" ++ name).

(** [path.dirname(p)] (POSIX): scanning from the right, past the trailing
    slashes and the last name, up to the slash before it; the index-0
    character is never scanned.  Here on the reversed tail of [p]. *)
Definition dirname (p : string) : string :=
  match list_ascii_of_string p with
  | [] => "."
  | c :: cs =>
      let r1 := drop_while is_slash (rev cs) in
      match drop_while (fun c => negb (is_slash c)) r1 with
      | [] => if is_slash c then "/" else "."
      | _ :: rest =>
          if is_slash c && match rest with [] => true | _ => false end
          then "//"
          else string_of_list_ascii (c :: rev rest)
      end
  end.

Fixpoint common_len (a b : list string) : nat :=
  match a, b with
  | x :: a', y :: b' => if String.eqb x y then S (common_len a' b') else 0
  | _, _ => 0
  end.

(** [path.relative(from, to)] for absolute [from] and [to]: one [".."]
    per segment of [from] below the common prefix, then the rest of [to].
    (Node's early [from === to] return gives [""], which is also what
    this yields for equal paths.) *)
Definition relative (from to : string) : string :=
  let f := abs_segs from in
  let t := abs_segs to in
  let k := common_len f t in
  String.concat "/" (repeat ".." (List.length f - k) ++ skipn k t).

(** ** Project-root resolver (src/utils/project-root.ts) *)

(** The file system, as seen by [fs.existsSync]: whether an entry exists
    at a path (probe errors count as absence). *)
Definition FileSystem := string -> bool.

Definition markers : list string :=
  [".git"; "package.json"; "yarn.lock"; "pnpm-lock.yaml";
   "package-lock.json"; "lerna.json"; "nx.json"; "workspace.json"].

Definition not_found_message : string :=
  "Could not find project root. Make sure you are in a project directory with package.json or .git".

(** The [while] loop of [findProjectRoot]; [fuel] bounds the iterations
    ([path.dirname] shortens a path until it reaches its fixed point, so
    two more than the length of the start directory always suffice). *)
Fixpoint find_loop (fs : FileSystem) (fuel : nat) (currentDir : string)
  : res string :=
  match fuel with
  | O => Throw not_found_message
  | S fuel' =>
      if String.eqb currentDir (dirname currentDir)
      then Throw not_found_message
      else if existsb (fun marker => fs (join currentDir marker)) markers
      then Ok currentDir
      else find_loop fs fuel' (dirname currentDir)
  end.

(** [findProjectRoot(startDir)], [startDir || process.cwd()] with the
    working directory [cwd]; an absent [startDir] is [""]. *)
Definition findProjectRoot (fs : FileSystem) (cwd startDir : string)
  : res string :=
  let currentDir := if String.eqb startDir "" then cwd else startDir in
  find_loop fs (S (S (String.length currentDir))) currentDir.

(** [isProjectRoot(dir)] *)
Definition isProjectRoot (fs : FileSystem) (cwd dir : string) : bool :=
  match findProjectRoot fs cwd dir with Ok _ => true | Throw _ => false end.

(** ** Runtime validators (index.ts) *)

(** [getProjectRoot()] *)
Definition getProjectRoot (fs : FileSystem) (cwd : string) : res string :=
  findProjectRoot fs cwd "".

(** [validatePath(pathStr, errorMessage)]; its result is [undefined]
    ([tt]) or a thrown error.  [pathStr] has type [string], so the
    [typeof] guard never fires. *)
Definition validatePath (fs : FileSystem) (cwd : string)
  (pathStr errorMessage : string) : res unit :=
  if String.eqb (trim pathStr) "" then Throw errorMessage
  else if invalidChars_test pathStr
  then Throw (errorMessage ++ ": contains invalid characters")
  else if startsWith pathStr "./" || startsWith pathStr "../" then
    match getProjectRoot fs cwd with
    | Throw e => Throw e
    | Ok root1 =>
        let resolvedPath := resolve root1 pathStr in
        match getProjectRoot fs cwd with
        | Throw e => Throw e
        | Ok projectRoot =>
            if startsWith resolvedPath projectRoot then Ok tt
            else Throw (errorMessage ++ ": path escapes project root")
        end
    end
  else Ok tt.

(** [errorMessage || dflt] for an optional message. *)
Definition or_default (errorMessage : option string) (dflt : string) : string :=
  match errorMessage with
  | Some m => if String.eqb m "" then dflt else m
  | None => dflt
  end.

Definition returning (pathStr : string) (r : res unit) : res string :=
  match r with Ok _ => Ok pathStr | Throw e => Throw e end.

Definition FilePath (fs : FileSystem) (cwd : string)
  (pathStr : string) (errorMessage : option string) : res string :=
  returning pathStr
    (validatePath fs cwd pathStr (or_default errorMessage "Invalid file path")).

Definition FolderPath (fs : FileSystem) (cwd : string)
  (pathStr : string) (errorMessage : option string) : res string :=
  returning pathStr
    (validatePath fs cwd pathStr (or_default errorMessage "Invalid folder path")).

Definition AnyPath (fs : FileSystem) (cwd : string)
  (pathStr : string) (errorMessage : option string) : res string :=
  returning pathStr
    (validatePath fs cwd pathStr (or_default errorMessage "Invalid path")).

(** The three exported validators. *)
Inductive Validator := VFile | VFolder | VAny.

Definition run_validator (v : Validator) :
  FileSystem -> string -> string -> option string -> res string :=
  match v with
  | VFile => FilePath
  | VFolder => FolderPath
  | VAny => AnyPath
  end.

Definition default_message (v : Validator) : string :=
  match v with
  | VFile => "Invalid file path"
  | VFolder => "Invalid folder path"
  | VAny => "Invalid path"
  end.

(** ** Static path checker (linter.ts) *)

(** [ts.EntityName]: an identifier, or a qualified name [left.right]
    whose [right] part is an identifier. *)
Inductive EntityName :=
| Identifier (text : string)
| QualifiedName (left : EntityName) (right : string).

(** Type annotations: a type reference, or any other type node (keyword
    types such as [string], unions, literals, ...). *)
Inductive TypeNode :=
| TypeReferenceNode (typeName : EntityName)
| OtherTypeNode.

(** Initializer expressions: a string literal (its unescaped [text] and
    its [getStart()]/[getWidth()]), or any other expression. *)
Inductive Expression :=
| StringLiteral (text : string) (start width : nat)
| OtherExpression.

Record VariableDeclaration := {
  vd_type : option TypeNode;
  vd_initializer : option Expression;
}.

Local Set Warnings "-register-all".

(** Syntax nodes: [ts.forEachChild] visits [children] in order. *)
Inductive Node :=
| VarDeclNode (d : VariableDeclaration) (children : list Node)
| OtherNode (children : list Node).

Record SourceFile := {
  sf_fileName : string;
  sf_isDeclarationFile : bool;
  sf_root : Node;
}.

(** [ts.DiagnosticCategory] *)
Inductive DiagnosticCategory := Warning | Error | Suggestion | Message.

Record Diagnostic := {
  category : DiagnosticCategory;
  code_ : nat;
  messageText : string;
  file : string;
  start : nat;
  length : nat;
}.

Inductive Severity := SevError | SevWarn | SevOff.

Record LinterOptions := { severity : option Severity }.

Record PathLinter := {
  projectRoot : string;
  options : LinterOptions;
}.

(** [new PathLinter(program, options)]: [findProjectRoot()] from the
    working directory, and [{ severity: 'error', ...options }]. *)
Definition new_PathLinter (fs : FileSystem) (cwd : string)
  (opts : LinterOptions) : res PathLinter :=
  match findProjectRoot fs cwd "" with
  | Throw e => Throw e
  | Ok root =>
      Ok {| projectRoot := root;
            options := {| severity :=
                            match severity opts with
                            | Some s => Some s
                            | None => Some SevError
                            end |} |}
  end.

(** [getTypeNameFromAST]; on a qualified name it recurses into [right],
    an identifier, whose text it returns. *)
Definition getTypeNameFromAST (typeName : EntityName) : string :=
  match typeName with
  | Identifier text => text
  | QualifiedName _ r => r
  end.

(** [isPathType] *)
Definition isPathType (typeNode : TypeNode) : bool :=
  match typeNode with
  | TypeReferenceNode tn =>
      let typeName := getTypeNameFromAST tn in
      String.eqb typeName "FilePathStr" || String.eqb typeName "FolderPathStr"
      || String.eqb typeName "AnyPathStr"
  | OtherTypeNode => false
  end.

(** [isValidPath]: [fs] is [fs.existsSync] (which never throws here: a
    probe error is a [false]). *)
Definition isValidPath (lin : PathLinter) (fs : FileSystem)
  (pathValue : string) : bool :=
  if String.eqb pathValue "" then false
  else if invalidChars_test pathValue then false
  else
    let fullPath :=
      if isAbsolute pathValue then pathValue
      else resolve (projectRoot lin) pathValue in
    let relativePath := relative (projectRoot lin) fullPath in
    if startsWith relativePath ".." || isAbsolute relativePath then false
    else fs fullPath.

(** [getSeverityCategory] *)
Definition getSeverityCategory (lin : PathLinter) : DiagnosticCategory :=
  match severity (options lin) with
  | Some SevWarn => Warning
  | Some SevOff => Suggestion
  | Some SevError | None => Error
  end.

Definition invalid_path_message (pathValue : string) : string :=
  "Invalid path: " ++ String (ascii_of_nat 34) pathValue
  ++ String (ascii_of_nat 34) " does not exist or is not accessible".

(** [checkVariableDeclaration], for a declaration of the source file
    [fileName] (called only when the initializer is present). *)
Definition checkVariableDeclaration (lin : PathLinter) (fs : FileSystem)
  (fileName : string) (node : VariableDeclaration) : option Diagnostic :=
  match vd_initializer node with
  | Some (StringLiteral pathValue st w) =>
      match vd_type node with
      | None => None
      | Some ty =>
          if negb (isPathType ty) then None
          else if negb (isValidPath lin fs pathValue) then
            Some {| category := getSeverityCategory lin;
                    code_ := 1001;
                    messageText := invalid_path_message pathValue;
                    file := fileName;
                    start := st;
                    length := w |}
          else None
      end
  | _ => None
  end.

(** The body of [visit] for a variable declaration: checked only when
    it has an initializer. *)
Definition visit_here (lin : PathLinter) (fs : FileSystem) (fileName : string)
  (d : VariableDeclaration) : list Diagnostic :=
  match vd_initializer d with
  | Some _ =>
      match checkVariableDeclaration lin fs fileName d with
      | Some diagnostic => [diagnostic]
      | None => []
      end
  | None => []
  end.

(** The [visit] closure of [checkFile]: a pre-order walk, the children
    visited in order by [ts.forEachChild]. *)
Fixpoint visit (lin : PathLinter) (fs : FileSystem) (fileName : string)
  (node : Node) : list Diagnostic :=
  match node with
  | VarDeclNode d children =>
      (visit_here lin fs fileName d ++ flat_map (visit lin fs fileName) children)%list
  | OtherNode children => flat_map (visit lin fs fileName) children
  end.

(** [checkFile(sourceFile)] *)
Definition checkFile (lin : PathLinter) (fs : FileSystem)
  (sourceFile : SourceFile) : list Diagnostic :=
  visit lin fs (sf_fileName sourceFile) (sf_root sourceFile).

(** [run()] *)
Definition run (lin : PathLinter) (fs : FileSystem)
  (sourceFiles : list SourceFile) : list Diagnostic :=
  flat_map (fun sf => if sf_isDeclarationFile sf then [] else checkFile lin fs sf)
    sourceFiles.

(** ** Language-service plugin ([createPathLinterPlugin]) *)

Section Plugin.

(** The values stored in the language service's properties, other than
    the diagnostics function the shim produces. *)
Variable Opaque : Type.

Inductive PropValue :=
| DiagnosticsFn (f : string -> list Diagnostic)
| OtherValue (o : Opaque).

(** The wrapped language service: its properties, its own
    [getSemanticDiagnostics], and [getProgram()!.getSourceFile]. *)
Record LanguageService := {
  ls_get : string -> PropValue;
  ls_getSemanticDiagnostics : string -> list Diagnostic;
  ls_getSourceFile : string -> option SourceFile;
}.

(** The [get] trap of the [Proxy] returned by [create(info)], with the
    linter built there. *)
Definition proxy_get (lin : PathLinter) (fs : FileSystem)
  (target : LanguageService) (prop : string) : PropValue :=
  if String.eqb prop "getSemanticDiagnostics" then
    DiagnosticsFn (fun fileName =>
      let originalDiagnostics := ls_getSemanticDiagnostics target fileName in
      match ls_getSourceFile target fileName with
      | None => originalDiagnostics
      | Some sourceFile =>
          let customDiagnostics := checkFile lin fs sourceFile in
          (originalDiagnostics ++ customDiagnostics)%list
      end)
  else ls_get target prop.

(** [createPathLinterPlugin(options).create(info)]: the linter is
    constructed first (its constructor may throw), then the proxy. *)
Definition create (fs : FileSystem) (cwd : string) (opts : LinterOptions)
  (target : LanguageService) : res (string -> PropValue) :=
  match new_PathLinter fs cwd opts with
  | Throw e => Throw e
  | Ok lin => Ok (proxy_get lin fs target)
  end.

End Plugin.

Arguments DiagnosticsFn {Opaque} f.
Arguments OtherValue {Opaque} o.
Arguments proxy_get {Opaque} lin fs target prop.
Arguments create {Opaque} fs cwd opts target.

(** ** Properties used in the statements *)

Fixpoint is_prefix (a b : list string) : bool :=
  match a, b with
  | [], _ => true
  | x :: a', y :: b' => String.eqb x y && is_prefix a' b'
  | _ :: _, [] => false
  end.

(** An absolute path lies in the directory subtree of [root] when, both
    normalised, the segments of [root] are a prefix of its segments. *)
Definition inside_root (root p : string) : bool :=
  is_prefix (abs_segs root) (abs_segs p).

(** The first component of [p] below [root] ([""] for the root itself). *)
Definition below_root_head (root p : string) : string :=
  hd "" (skipn (List.length (abs_segs root)) (abs_segs p)).

(** The segments of a (possibly qualified) type name, left to right. *)
Fixpoint name_segments (en : EntityName) : list string :=
  match en with
  | Identifier t => [t]
  | QualifiedName l r => (name_segments l ++ [r])%list
  end.

Definition marker_type_names : list string :=
  ["FilePathStr"; "FolderPathStr"; "AnyPathStr"].

(** The annotation of a declaration names a marker type, by the rightmost
    segment of its (possibly qualified) name. *)
Definition annotated_with_marker (d : VariableDeclaration) : bool :=
  match vd_type d with
  | Some (TypeReferenceNode tn) =>
      existsb (String.eqb (last (name_segments tn) "")) marker_type_names
  | _ => false
  end.

(** The variable declarations of a syntax tree, in pre-order. *)
Fixpoint var_decls (n : Node) : list VariableDeclaration :=
  match n with
  | VarDeclNode d children => d :: flat_map var_decls children
  | OtherNode children => flat_map var_decls children
  end.

(** Whether one of the markers exists directly in directory [d]. *)
Definition has_marker (fs : FileSystem) (d : string) : bool :=
  existsb (fun marker => fs (join d marker)) markers.

(** A segment is empty or starts with a character other than ['/']. *)
Definition seg_ok (s : string) : Prop :=
  match s with
  | EmptyString => True
  | String c _ => c <> "/"%char
  end.



(** A diagnostic with its category replaced. *)
Definition with_category (c : DiagnosticCategory) (d : Diagnostic) : Diagnostic :=
  {| category := c; code_ := code_ d; messageText := messageText d;
     file := file d; start := start d; length := length d |}.

(** ** Concrete inputs *)

(** A project at [/home/proj] (marked by [.git]) with a [src] entry and an
    entry named [..cache]. *)
Definition fs_proj : FileSystem :=
  fun p => String.eqb p "/home/proj" || String.eqb p "/home/proj/.git"
           || String.eqb p "/home/proj/src" || String.eqb p "/home/proj/..cache".

Definition cwd_proj : string := "/home/proj".

(** A file system whose only marker is [/package.json]. *)
Definition fs_top : FileSystem := fun p => String.eqb p "/package.json".

Definition lin_proj : PathLinter :=
  {| projectRoot := "/home/proj"; options := {| severity := Some SevError |} |}.

Definition decl_of (ty : option TypeNode) (v : string) : VariableDeclaration :=
  {| vd_type := ty; vd_initializer := Some (StringLiteral v 24 5) |}.

Definition filePathStr_ann : TypeNode :=
  TypeReferenceNode (QualifiedName (Identifier "lp") "FilePathStr").

(** [const a: string = "missing"; const b: lp.FilePathStr = "src";] *)
Definition sf_proj : SourceFile :=
  {| sf_fileName := "/home/proj/a.ts";
     sf_isDeclarationFile := false;
     sf_root := OtherNode
       [VarDeclNode (decl_of (Some OtherTypeNode) "missing") [];
        VarDeclNode (decl_of (Some filePathStr_ann) "missing") []] |}.

(** A service with two properties. *)
Definition svc_proj : LanguageService nat :=
  {| ls_get := fun prop => OtherValue (String.length prop);
     ls_getSemanticDiagnostics := fun _ => [];
     ls_getSourceFile := fun fileName =>
       if String.eqb fileName "/home/proj/a.ts" then Some sf_proj else None |}.

(** Induction on syntax trees, with the hypothesis for every child. *)
Fixpoint Node_ind_deep (P : Node -> Prop)
  (Hvar : forall d children, Forall P children -> P (VarDeclNode d children))
  (Hother : forall children, Forall P children -> P (OtherNode children))
  (n : Node) : P n :=
  let fix all (l : list Node) : Forall P l :=
    match l with
    | [] => Forall_nil P
    | x :: r => Forall_cons x (Node_ind_deep P Hvar Hother x) (all r)
    end in
  match n with
  | VarDeclNode d children => Hvar d children (all children)
  | OtherNode children => Hother children (all children)
  end.

(** ** Lemmas: trimming and the validators *)

Lemma drop_spaces_nil (l : list ascii) :
  drop_spaces l = [] <-> forallb is_js_space l = true.
Proof.
  induction l as [|c r IH]; simpl; [tauto|].
  destruct (is_js_space c); simpl; [exact IH|].
  split; discriminate.
Qed.

Lemma forallb_drop_spaces (l : list ascii) :
  forallb is_js_space (drop_spaces l) = forallb is_js_space l.
Proof.
  induction l as [|c r IH]; simpl; [reflexivity|].
  destruct (is_js_space c) eqn:E; simpl; [exact IH|now rewrite E].
Qed.

Lemma forallb_rev {A} (f : A -> bool) (l : list A) :
  forallb f (rev l) = forallb f l.
Proof.
  induction l as [|x r IH]; simpl; [reflexivity|].
  rewrite forallb_app, IH; simpl.
  now rewrite andb_true_r, andb_comm.
Qed.

Lemma string_of_list_ascii_nil (l : list ascii) :
  string_of_list_ascii l = "" <-> l = [].
Proof. destruct l; simpl; split; congruence. Qed.

(** [s.trim()] is empty exactly when [s] is made of white space. *)
Lemma trim_empty (s : string) :
  String.eqb (trim s) "" = forallb is_js_space (list_ascii_of_string s).
Proof.
  apply eq_true_iff_eq. rewrite String.eqb_eq. unfold trim.
  rewrite string_of_list_ascii_nil.
  split.
  - intros H. apply (f_equal (@rev ascii)) in H.
    rewrite rev_involutive in H. simpl in H.
    apply drop_spaces_nil in H.
    now rewrite forallb_rev, forallb_drop_spaces in H.
  - intros H.
    assert (E : drop_spaces (rev (drop_spaces (list_ascii_of_string s))) = []).
    { apply drop_spaces_nil. now rewrite forallb_rev, forallb_drop_spaces. }
    now rewrite E.
Qed.

Lemma validator_unfold (v : Validator) fs cwd s m :
  run_validator v fs cwd s m
  = returning s (validatePath fs cwd s (or_default m (default_message v))).
Proof. destruct v; reflexivity. Qed.

(** A path starting with a non-space character is not blank. *)
Lemma trim_nonempty_first (c : ascii) (r : string) :
  is_js_space c = false -> String.eqb (trim (String c r)) "" = false.
Proof. intros H. rewrite trim_empty. simpl. now rewrite H. Qed.

Lemma startsWith_dot (s : string) :
  startsWith s "./" = true \/ startsWith s "../" = true ->
  exists r, s = String "." r.
Proof.
  unfold startsWith. intros H.
  destruct s as [|c r]; [destruct H; discriminate|].
  exists r. f_equal.
  destruct H as [H|H]; cbn [String.prefix] in H;
    destruct (ascii_dec "." c); congruence.
Qed.

(** ** Runtime validators: the claims *)

(** C4: a candidate containing one of [< > : | ? *], the double quote or
    a control character 0x00-0x1F is rejected (an error is thrown) by each
    of [FilePath], [FolderPath] and [AnyPath]. *)
Theorem validators_reject_invalid_chars :
  forall (v : Validator) (fs : FileSystem) (cwd s : string) (m : option string),
    invalidChars_test s = true ->
    exists e, run_validator v fs cwd s m = Throw e.
Proof.
  intros v fs cwd s m H. rewrite validator_unfold.
  unfold validatePath.
  destruct (String.eqb (trim s) ""); [eexists; reflexivity|].
  rewrite H. eexists; reflexivity.
Qed.

(** C5 (amended): a candidate that is not blank (non-empty after
    trimming white space), contains no forbidden character and starts
    neither with ["./"] nor with ["../"] is returned unchanged by each
    validator, whatever the file system and working directory. *)
Theorem validators_accept_plain :
  forall (v : Validator) (fs : FileSystem) (cwd s : string) (m : option string),
    String.eqb (trim s) "" = false ->
    invalidChars_test s = false ->
    startsWith s "./" = false ->
    startsWith s "../" = false ->
    run_validator v fs cwd s m = Ok s.
Proof.
  intros v fs cwd s m H1 H2 H3 H4. rewrite validator_unfold.
  unfold validatePath. now rewrite H1, H2, H3, H4.
Qed.

(** C10: a non-empty candidate made only of white space (including the
    control characters 0x09-0x0D) is rejected with the plain message,
    supplied or default, without any suffix: the blank check comes before
    the character check. *)
Theorem validators_blank_plain_message :
  forall (v : Validator) (fs : FileSystem) (cwd s : string) (m : option string),
    s <> "" ->
    forallb is_js_space (list_ascii_of_string s) = true ->
    run_validator v fs cwd s m = Throw (or_default m (default_message v)).
Proof.
  intros v fs cwd s m _ H. rewrite validator_unfold.
  unfold validatePath. now rewrite trim_empty, H.
Qed.

(** C6 (amended): a candidate starting with ["./"] or ["../"], free of
    forbidden characters, whose resolution against the project root does
    not begin with the root path is rejected with the message suffixed by
    [": path escapes project root"]; and for a candidate starting with
    neither, the outcome does not depend on the file system or the working
    directory (no containment check is made).  A candidate starting with
    ["./"] or ["../"] that contains a forbidden character fails with the
    invalid-characters message instead, before any resolution. *)
Theorem validators_escape_message :
  (forall (v : Validator) (fs : FileSystem) (cwd s root : string) (m : option string),
     startsWith s "./" || startsWith s "../" = true ->
     invalidChars_test s = false ->
     getProjectRoot fs cwd = Ok root ->
     startsWith (resolve root s) root = false ->
     run_validator v fs cwd s m
     = Throw (or_default m (default_message v) ++ ": path escapes project root"))
  /\
  (forall (v : Validator) (fs fs' : FileSystem) (cwd cwd' s : string) (m : option string),
     startsWith s "./" = false ->
     startsWith s "../" = false ->
     run_validator v fs cwd s m = run_validator v fs' cwd' s m)
  /\
  (forall (v : Validator) (fs : FileSystem) (cwd s : string) (m : option string),
     startsWith s "./" || startsWith s "../" = true ->
     invalidChars_test s = true ->
     run_validator v fs cwd s m
     = Throw (or_default m (default_message v) ++ ": contains invalid characters")).
Proof.
  split; [|split].
  - intros v fs cwd s root m Hdot Hc Hr Hesc.
    rewrite validator_unfold. unfold validatePath.
    destruct (startsWith_dot s) as [r ->].
    { now apply orb_true_iff. }
    rewrite trim_nonempty_first by reflexivity.
    rewrite Hc, Hdot, Hr, Hesc. reflexivity.
  - intros v fs fs' cwd cwd' s m H1 H2.
    rewrite !validator_unfold. unfold validatePath.
    now rewrite H1, H2.
  - intros v fs cwd s m Hdot Hc.
    rewrite validator_unfold. unfold validatePath.
    destruct (startsWith_dot s) as [r ->].
    { now apply orb_true_iff. }
    rewrite trim_nonempty_first by reflexivity.
    now rewrite Hc.
Qed.

(** ** Lemmas: paths *)

Lemma common_len_le (a b : list string) : common_len a b <= List.length a.
Proof.
  revert b; induction a as [|x a IH]; intros [|y b]; simpl; try lia.
  destruct (String.eqb x y); [specialize (IH b); lia|lia].
Qed.

Lemma common_len_prefix (a b : list string) :
  is_prefix a b = true -> common_len a b = List.length a.
Proof.
  revert b; induction a as [|x a IH]; intros [|y b] H; simpl in *;
    try (reflexivity || discriminate).
  apply andb_true_iff in H as [H1 H2]. rewrite H1. now rewrite (IH b H2).
Qed.

Lemma common_len_not_prefix (a b : list string) :
  is_prefix a b = false -> common_len a b < List.length a.
Proof.
  revert b; induction a as [|x a IH]; intros [|y b] H; simpl in *;
    try (discriminate || lia).
  destruct (String.eqb x y); simpl in H; [specialize (IH b H); lia|lia].
Qed.

Lemma prefix_app (s t : string) : String.prefix s (s ++ t) = true.
Proof.
  induction s as [|c s IH]; simpl; [now destruct t|].
  destruct (ascii_dec c c); congruence.
Qed.

(** A path that leaves the root is expressed from the root with a
    leading [".."]. *)
Lemma relative_outside (root p : string) :
  inside_root root p = false -> startsWith (relative root p) ".." = true.
Proof.
  unfold inside_root, relative, startsWith. intros H.
  apply common_len_not_prefix in H.
  destruct (List.length (abs_segs root) - common_len (abs_segs root) (abs_segs p))
    as [|n] eqn:E; [lia|].
  simpl. destruct (repeat ".." n ++ skipn _ _)%list; reflexivity.
Qed.

Lemma split_slash_ok (p : string) : Forall seg_ok (split_slash p).
Proof.
  induction p as [|c r IH]; simpl; [repeat constructor|].
  destruct (Ascii.eqb c "/") eqn:E; [now constructor|].
  apply Ascii.eqb_neq in E.
  destruct (split_slash r) as [|h t]; inversion IH; subst; repeat constructor; auto.
Qed.

Lemma Forall_removelast {A} (P : A -> Prop) (l : list A) :
  Forall P l -> Forall P (removelast l).
Proof.
  induction 1 as [|x l Hx Hl IH]; simpl; [constructor|].
  destruct l; [constructor|]. now constructor.
Qed.

(** The segments of a normalised path are non-empty and contain no
    leading ['/']. *)
Lemma abs_segs_ok (p : string) :
  Forall (fun s => s <> "" /\ seg_ok s) (abs_segs p).
Proof.
  unfold abs_segs, normsegs.
  generalize (split_slash_ok p).
  assert (Hacc : Forall (fun s => s <> "" /\ seg_ok s) (@nil string)) by constructor.
  revert Hacc. generalize (@nil string) as acc.
  induction (split_slash p) as [|seg l IH]; intros acc Hacc Hl; simpl; [exact Hacc|].
  inversion Hl as [|? ? Hseg Hrest]; subst.
  apply IH; [|exact Hrest].
  unfold norm_step.
  destruct (String.eqb seg "" || String.eqb seg ".") eqn:E1; [exact Hacc|].
  destruct (String.eqb seg "..").
  - now apply Forall_removelast.
  - apply Forall_app. split; [exact Hacc|]. constructor; [|constructor].
    split; [|exact Hseg].
    intros ->. discriminate.
Qed.

Lemma prefix_dotdot_app (x y : string) :
  String.prefix ".." x = false -> String.prefix ".." (x ++ String "/" y) = false.
Proof.
  intros H.
  destruct x as [|a [|b x]]; cbn [String.append String.prefix] in *.
  - destruct (ascii_dec "." "/") as [e0|]; [discriminate e0|reflexivity].
  - destruct (ascii_dec "." a); [|reflexivity].
    destruct (ascii_dec "." "/") as [e0|]; [discriminate e0|reflexivity].
  - destruct (ascii_dec "." a); [|reflexivity].
    destruct (ascii_dec "." b); [destruct x; discriminate|reflexivity].
Qed.

(** A path inside the root is expressed from the root by its components
    below the root: no leading ['/'], and a leading [".."] only when its
    first component begins with [".."]. *)
Lemma relative_inside (root p : string) :
  inside_root root p = true ->
  startsWith (below_root_head root p) ".." = false ->
  startsWith (relative root p) ".." = false /\
  isAbsolute (relative root p) = false.
Proof.
  unfold inside_root, below_root_head, relative, isAbsolute, startsWith.
  intros Hin Hhead.
  rewrite (common_len_prefix _ _ Hin), Nat.sub_diag. simpl.
  pose proof (abs_segs_ok p) as Hok.
  assert (Hok' : Forall (fun s => s <> "" /\ seg_ok s)
                   (skipn (List.length (abs_segs root)) (abs_segs p))).
  { apply Forall_forall. intros x Hx. apply (proj1 (Forall_forall _ _) Hok).
    rewrite <- (firstn_skipn (List.length (abs_segs root)) (abs_segs p)).
    apply in_or_app. now right. }
  revert Hok' Hhead.
  generalize (skipn (List.length (abs_segs root)) (abs_segs p)) as rest.
  intros [|x rest] Hok' Hhead; [split; reflexivity|].
  inversion Hok' as [|? ? [Hne Hx] _]; subst. simpl in Hhead.
  assert (Hfirst : forall y, String.prefix "/" (x ++ y) = false).
  { intros y. destruct x as [|c x]; [contradiction|].
    cbn [String.append String.prefix].
    destruct (ascii_dec "/" c) as [e0|]; [|reflexivity].
    exfalso; apply Hx; now symmetry. }
  destruct rest as [|z rest]; simpl.
  - split; [exact Hhead|].
    destruct x as [|c x]; [contradiction|].
    cbn [String.prefix].
    destruct (ascii_dec "/" c) as [e0|]; [|reflexivity].
    exfalso; apply Hx; now symmetry.
  - split; [now apply prefix_dotdot_app|apply Hfirst].
Qed.

(** ** Static path checker: the claims *)

Lemma isValidPath_false (lin : PathLinter) (fs : FileSystem) (v : string) :
  let fullPath := if isAbsolute v then v else resolve (projectRoot lin) v in
  v = "" \/ invalidChars_test v = true
  \/ inside_root (projectRoot lin) fullPath = false \/ fs fullPath = false ->
  isValidPath lin fs v = false.
Proof.
  intros fullPath H. unfold isValidPath. fold fullPath.
  destruct (String.eqb v "") eqn:Ee; [reflexivity|].
  apply String.eqb_neq in Ee.
  destruct (invalidChars_test v) eqn:Ec; [reflexivity|].
  destruct H as [H|[H|[H|H]]]; [contradiction|discriminate|..].
  - now rewrite (relative_outside _ _ H).
  - destruct (startsWith _ ".." || isAbsolute _); [reflexivity|exact H].
Qed.

Lemma isValidPath_true (lin : PathLinter) (fs : FileSystem) (v : string) :
  let fullPath := if isAbsolute v then v else resolve (projectRoot lin) v in
  v <> "" -> invalidChars_test v = false ->
  inside_root (projectRoot lin) fullPath = true ->
  startsWith (below_root_head (projectRoot lin) fullPath) ".." = false ->
  fs fullPath = true ->
  isValidPath lin fs v = true.
Proof.
  intros fullPath Hne Hc Hin Hhead Hex. unfold isValidPath. fold fullPath.
  apply String.eqb_neq in Hne. rewrite Hne, Hc.
  destruct (relative_inside _ _ Hin Hhead) as [H1 H2].
  now rewrite H1, H2.
Qed.

(** C2 (amended): for a declaration annotated with a marker type and
    initialised with a string literal, the checker reports nothing or
    exactly one diagnostic, with the configured category, code 1001, the
    message [Invalid path: "<value>" does not exist or is not accessible],
    the declaration's file and the literal's span.  It reports it when the
    literal is empty, contains a forbidden character, resolves outside the
    project root or does not exist; it reports nothing when the literal is
    non-empty, free of forbidden characters, resolves inside the root,
    exists, and its first component below the root does not begin with
    [".."]. *)
Theorem checkVariableDeclaration_diagnostic :
  forall (lin : PathLinter) (fs : FileSystem) (fileName : string)
         (ty : TypeNode) (v : string) (st w : nat),
    isPathType ty = true ->
    let node := {| vd_type := Some ty;
                   vd_initializer := Some (StringLiteral v st w) |} in
    let fullPath := if isAbsolute v then v else resolve (projectRoot lin) v in
    let diagnostic := {| category := getSeverityCategory lin;
                         code_ := 1001;
                         messageText := invalid_path_message v;
                         file := fileName;
                         start := st;
                         length := w |} in
    (checkVariableDeclaration lin fs fileName node = None
     \/ checkVariableDeclaration lin fs fileName node = Some diagnostic)
    /\ (v = "" \/ invalidChars_test v = true
        \/ inside_root (projectRoot lin) fullPath = false \/ fs fullPath = false ->
        checkVariableDeclaration lin fs fileName node = Some diagnostic)
    /\ (v <> "" -> invalidChars_test v = false ->
        inside_root (projectRoot lin) fullPath = true ->
        fs fullPath = true ->
        startsWith (below_root_head (projectRoot lin) fullPath) ".." = false ->
        checkVariableDeclaration lin fs fileName node = None).
Proof.
  intros lin fs fileName ty v st w Hty node fullPath diagnostic.
  unfold checkVariableDeclaration, node. cbn [vd_initializer vd_type].
  rewrite Hty. cbn [negb].
  split; [|split].
  - destruct (isValidPath lin fs v); [now left|now right].
  - intros H. now rewrite (isValidPath_false lin fs v H).
  - intros Hne Hc Hin Hex Hhead.
    now rewrite (isValidPath_true lin fs v Hne Hc Hin Hhead Hex).
Qed.

Lemma flat_map_Forall_ext {A B} (f g : A -> list B) (l : list A) :
  Forall (fun x => f x = g x) l -> flat_map f l = flat_map g l.
Proof. induction 1; simpl; congruence. Qed.

Lemma flat_map_app' {A B} (f : A -> list B) (l1 l2 : list A) :
  flat_map f (l1 ++ l2) = (flat_map f l1 ++ flat_map f l2)%list.
Proof. induction l1; simpl; [reflexivity|]. now rewrite IHl1, app_assoc. Qed.

Lemma flat_map_flat_map' {A B C} (f : B -> list C) (g : A -> list B) (l : list A) :
  flat_map f (flat_map g l) = flat_map (fun x => flat_map f (g x)) l.
Proof. induction l; simpl; [reflexivity|]. now rewrite flat_map_app', IHl. Qed.

(** The walk of [checkFile] checks the variable declarations of the tree
    in pre-order. *)
Lemma visit_var_decls (lin : PathLinter) (fs : FileSystem) (fileName : string)
  (n : Node) :
  visit lin fs fileName n = flat_map (visit_here lin fs fileName) (var_decls n).
Proof.
  induction n as [d children IH|children IH] using Node_ind_deep; simpl.
  - f_equal. rewrite flat_map_flat_map'.
    now apply flat_map_Forall_ext.
  - rewrite flat_map_flat_map'. now apply flat_map_Forall_ext.
Qed.

Lemma name_segments_last (en : EntityName) :
  last (name_segments en) "" = getTypeNameFromAST en.
Proof. destruct en; simpl; [reflexivity|apply last_last]. Qed.

(** C7: the declared type name is the rightmost segment of a qualified
    name, and a file none of whose variable declarations is annotated with
    one of the marker names [FilePathStr], [FolderPathStr], [AnyPathStr]
    (e.g. with plain [string]) gets no diagnostic, whatever its literals
    and the file system. *)
Theorem non_marker_declarations_silent :
  (forall en : EntityName, getTypeNameFromAST en = last (name_segments en) "")
  /\
  (forall (lin : PathLinter) (fs : FileSystem) (sf : SourceFile),
     Forall (fun d => annotated_with_marker d = false) (var_decls (sf_root sf)) ->
     checkFile lin fs sf = []).
Proof.
  split.
  - intros en. now rewrite name_segments_last.
  - intros lin fs sf H. unfold checkFile. rewrite visit_var_decls.
    induction H as [|d ds Hd _ IH]; simpl; [reflexivity|].
    rewrite IH, app_nil_r.
    unfold visit_here, checkVariableDeclaration.
    unfold annotated_with_marker in Hd.
    destruct (vd_initializer d) as [[v st w|]|]; try reflexivity.
    destruct (vd_type d) as [[tn|]|]; try reflexivity.
    unfold isPathType. rewrite <- name_segments_last.
    simpl in Hd. rewrite orb_false_r, orb_assoc in Hd. now rewrite Hd.
Qed.

Lemma checkVariableDeclaration_category (l1 l2 : PathLinter) (fs : FileSystem)
  (fileName : string) (d : VariableDeclaration) :
  projectRoot l1 = projectRoot l2 ->
  checkVariableDeclaration l2 fs fileName d
  = option_map (with_category (getSeverityCategory l2))
      (checkVariableDeclaration l1 fs fileName d).
Proof.
  intros Hr. unfold checkVariableDeclaration, isValidPath. rewrite Hr.
  destruct (vd_initializer d) as [[v st w|]|]; try reflexivity.
  destruct (vd_type d) as [ty|]; try reflexivity.
  destruct (negb (isPathType ty)); [reflexivity|].
  destruct (negb _); reflexivity.
Qed.

Lemma checkFile_category (l1 l2 : PathLinter) (fs : FileSystem) (sf : SourceFile) :
  projectRoot l1 = projectRoot l2 ->
  checkFile l2 fs sf
  = map (with_category (getSeverityCategory l2)) (checkFile l1 fs sf).
Proof.
  intros Hr. unfold checkFile. rewrite !visit_var_decls.
  induction (var_decls (sf_root sf)) as [|d ds IH]; simpl; [reflexivity|].
  rewrite map_app, IH. f_equal.
  unfold visit_here. destruct (vd_initializer d); [|reflexivity].
  rewrite (checkVariableDeclaration_category l1 l2 fs _ d Hr).
  destruct (checkVariableDeclaration l1 fs _ d); reflexivity.
Qed.

Lemma checkFile_categories (lin : PathLinter) (fs : FileSystem) (sf : SourceFile) :
  Forall (fun d => category d = getSeverityCategory lin) (checkFile lin fs sf).
Proof.
  rewrite (checkFile_category lin lin fs sf eq_refl).
  apply Forall_map, Forall_forall. reflexivity.
Qed.

(** C8: two checkers built in the same directory with different
    [severity] options report, on every file, the same diagnostics up to
    their category (same number, codes, messages, files and spans); every
    diagnostic carries the category of the option, and [error], [warn] and
    [off] (the default being [error]) give the distinct categories [Error],
    [Warning] and [Suggestion]: [off] does not suppress diagnostics. *)
Theorem severity_changes_only_category :
  forall (fs : FileSystem) (cwd : string) (o1 o2 : LinterOptions)
         (l1 l2 : PathLinter) (sf : SourceFile),
    new_PathLinter fs cwd o1 = Ok l1 ->
    new_PathLinter fs cwd o2 = Ok l2 ->
    checkFile l2 fs sf
    = map (with_category (getSeverityCategory l2)) (checkFile l1 fs sf)
    /\ Forall (fun d => category d = getSeverityCategory l2) (checkFile l2 fs sf)
    /\ getSeverityCategory l2 = match severity o2 with
                                | Some SevWarn => Warning
                                | Some SevOff => Suggestion
                                | Some SevError | None => Error
                                end.
Proof.
  intros fs cwd o1 o2 l1 l2 sf H1 H2.
  unfold new_PathLinter in H1, H2.
  destruct (findProjectRoot fs cwd "") as [root|e]; [|discriminate].
  injection H1 as <-. injection H2 as <-.
  split; [|split].
  - now apply checkFile_category.
  - apply checkFile_categories.
  - unfold getSeverityCategory; simpl.
    destruct (severity o2) as [[| |]|]; reflexivity.
Qed.

(** ** Language-service plugin: the claim *)

(** C9: the service returned by [create] forwards every property other
    than [getSemanticDiagnostics] to the wrapped service unchanged, and its
    [getSemanticDiagnostics(fileName)] returns the wrapped service's
    diagnostics followed by the checker's diagnostics for that file (only
    the former when the program has no such file). *)
Theorem plugin_appends_path_diagnostics :
  forall (Opaque : Type) (fs : FileSystem) (cwd : string) (opts : LinterOptions)
         (target : LanguageService Opaque) (svc : string -> PropValue Opaque),
    create fs cwd opts target = Ok svc ->
    exists lin,
      new_PathLinter fs cwd opts = Ok lin
      /\ (forall prop, prop <> "getSemanticDiagnostics" -> svc prop = ls_get _ target prop)
      /\ exists f,
           svc "getSemanticDiagnostics" = DiagnosticsFn f
           /\ forall fileName,
                f fileName
                = (ls_getSemanticDiagnostics _ target fileName
                   ++ match ls_getSourceFile _ target fileName with
                      | Some sf => checkFile lin fs sf
                      | None => []
                      end)%list.
Proof.
  intros Opaque fs cwd opts target svc H.
  unfold create in H.
  destruct (new_PathLinter fs cwd opts) as [lin|e]; [|discriminate].
  injection H as <-. exists lin.
  split; [reflexivity|split].
  - intros prop Hp. unfold proxy_get.
    apply String.eqb_neq in Hp. now rewrite Hp.
  - eexists. split; [reflexivity|].
    intros fileName. simpl.
    destruct (ls_getSourceFile _ target fileName); [reflexivity|].
    now rewrite app_nil_r.
Qed.

(** ** Project-root resolver: the claim *)

(** C3 (failing input): the loop of [findProjectRoot] tests
    [currentDir !== path.dirname(currentDir)] before probing the markers,
    so the filesystem root itself is never probed: with [/package.json] as
    the only marker, the search from [/home/u] (or from [/]) fails, although
    [/] is an ancestor holding a marker.  Below the root the nearest marked
    ancestor is found. *)
Theorem findProjectRoot_root_never_probed :
  fs_top (join "/" "package.json") = true
  /\ findProjectRoot fs_top "/home/u" "" = Throw not_found_message
  /\ findProjectRoot fs_top "/" "" = Throw not_found_message
  /\ findProjectRoot fs_proj cwd_proj "/home/proj/src/lib" = Ok "/home/proj".
Proof. repeat split; reflexivity. Qed.

(** ** Counterexamples *)


(** C2: the empty literal gets a diagnostic though it has no forbidden
    character and resolves to the (existing) project root; so does the
    existing in-root entry [..cache]. *)
Lemma checker_flags_empty_literal :
  invalidChars_test "" = false
  /\ inside_root "/home/proj" (resolve "/home/proj" "") = true
  /\ fs_proj (resolve "/home/proj" "") = true
  /\ checkVariableDeclaration lin_proj fs_proj "/home/proj/a.ts"
       (decl_of (Some filePathStr_ann) "") <> None
  /\ invalidChars_test "..cache" = false
  /\ inside_root "/home/proj" (resolve "/home/proj" "..cache") = true
  /\ fs_proj (resolve "/home/proj" "..cache") = true
  /\ checkVariableDeclaration lin_proj fs_proj "/home/proj/a.ts"
       (decl_of (Some filePathStr_ann) "..cache") <> None.
Proof. repeat split; try reflexivity; discriminate. Qed.

(** C5: the non-empty candidate [" "] (a single space) has no forbidden
    character and no ["./"] or ["../"] prefix, yet it is rejected. *)
Lemma validators_reject_single_space :
  " " <> ""
  /\ invalidChars_test " " = false
  /\ startsWith " " "./" = false /\ startsWith " " "../" = false
  /\ AnyPath fs_proj cwd_proj " " None = Throw "Invalid path".
Proof. repeat split; try reflexivity; discriminate. Qed.

(** C6: ["../a|b"] resolves outside the project root, but is rejected for
    its characters, not with the root-escape message. *)
Lemma validators_escape_after_chars :
  getProjectRoot fs_proj cwd_proj = Ok "/home/proj"
  /\ startsWith (resolve "/home/proj" "../a|b") "/home/proj" = false
  /\ AnyPath fs_proj cwd_proj "../a|b" None
     = Throw "Invalid path: contains invalid characters"
  /\ AnyPath fs_proj cwd_proj "../a|b" None
     <> Throw "Invalid path: path escapes project root".
Proof. repeat split; try reflexivity; discriminate. Qed.

(** ** Witnesses *)

Lemma validators_reject_invalid_chars_witness :
  invalidChars_test "a<b" = true
  /\ exists e, run_validator VFile fs_proj cwd_proj "a<b" None = Throw e.
Proof.
  split; [reflexivity|].
  apply (validators_reject_invalid_chars VFile fs_proj cwd_proj "a<b" None).
  reflexivity.
Defined.

Lemma validators_accept_plain_witness :
  run_validator VAny fs_top "/nowhere" "/etc/passwd" None = Ok "/etc/passwd".
Proof.
  apply validators_accept_plain; reflexivity.
Defined.

Lemma validators_blank_plain_message_witness :
  run_validator VFolder fs_proj cwd_proj (String (ascii_of_nat 9) " ") (Some "bad")
  = Throw "bad".
Proof.
  apply (validators_blank_plain_message VFolder fs_proj cwd_proj
           (String (ascii_of_nat 9) " ") (Some "bad")).
  - discriminate.
  - reflexivity.
Defined.

Lemma validators_escape_message_witness :
  run_validator VFile fs_proj cwd_proj "../../etc/passwd" None
  = Throw "Invalid file path: path escapes project root"
  /\ run_validator VAny fs_proj cwd_proj "src/x" None
     = run_validator VAny fs_top "/" "src/x" None
  /\ run_validator VFolder fs_proj cwd_proj "../a|b" None
     = Throw "Invalid folder path: contains invalid characters".
Proof.
  split; [|split].
  - apply (proj1 validators_escape_message VFile fs_proj cwd_proj
             "../../etc/passwd" "/home/proj" None); reflexivity.
  - apply (proj1 (proj2 validators_escape_message)); reflexivity.
  - apply (proj2 (proj2 validators_escape_message) VFolder fs_proj cwd_proj
             "../a|b" None); reflexivity.
Defined.

Lemma checkVariableDeclaration_diagnostic_witness :
  isPathType filePathStr_ann = true
  /\ checkVariableDeclaration lin_proj fs_proj "/home/proj/a.ts"
       (decl_of (Some filePathStr_ann) "missing")
     = Some {| category := Error; code_ := 1001;
               messageText := invalid_path_message "missing";
               file := "/home/proj/a.ts"; start := 24; length := 5 |}.
Proof.
  split; [reflexivity|].
  destruct (checkVariableDeclaration_diagnostic lin_proj fs_proj "/home/proj/a.ts"
              filePathStr_ann "missing" 24 5 eq_refl) as [_ [H _]].
  apply H. right; right; right. reflexivity.
Defined.

Lemma non_marker_declarations_silent_witness :
  checkFile lin_proj fs_proj
    {| sf_fileName := "/home/proj/b.ts"; sf_isDeclarationFile := false;
       sf_root := OtherNode [VarDeclNode (decl_of (Some OtherTypeNode) "missing") []] |}
  = [].
Proof.
  apply (proj2 non_marker_declarations_silent).
  constructor; [reflexivity|constructor].
Defined.

Lemma severity_changes_only_category_witness :
  let l1 := {| projectRoot := "/home/proj"; options := {| severity := Some SevError |} |} in
  let l2 := {| projectRoot := "/home/proj"; options := {| severity := Some SevOff |} |} in
  new_PathLinter fs_proj cwd_proj {| severity := None |} = Ok l1
  /\ new_PathLinter fs_proj cwd_proj {| severity := Some SevOff |} = Ok l2
  /\ checkFile l2 fs_proj sf_proj
     = map (with_category (getSeverityCategory l2)) (checkFile l1 fs_proj sf_proj)
  /\ getSeverityCategory l2 = Suggestion.
Proof.
  intros l1 l2.
  assert (H1 : new_PathLinter fs_proj cwd_proj {| severity := None |} = Ok l1)
    by reflexivity.
  assert (H2 : new_PathLinter fs_proj cwd_proj {| severity := Some SevOff |} = Ok l2)
    by reflexivity.
  destruct (severity_changes_only_category fs_proj cwd_proj _ _ l1 l2 sf_proj H1 H2)
    as [E [_ C]].
  split; [exact H1|split; [exact H2|split; [exact E|exact C]]].
Defined.

Lemma plugin_appends_path_diagnostics_witness :
  create fs_proj cwd_proj {| severity := None |} svc_proj
  = Ok (proxy_get lin_proj fs_proj svc_proj)
  /\ exists lin,
       new_PathLinter fs_proj cwd_proj {| severity := None |} = Ok lin
       /\ (forall prop, prop <> "getSemanticDiagnostics" ->
             proxy_get lin_proj fs_proj svc_proj prop = ls_get _ svc_proj prop)
       /\ exists f,
            proxy_get lin_proj fs_proj svc_proj "getSemanticDiagnostics" = DiagnosticsFn f
            /\ forall fileName,
                 f fileName
                 = (ls_getSemanticDiagnostics _ svc_proj fileName
                    ++ match ls_getSourceFile _ svc_proj fileName with
                       | Some sf => checkFile lin fs_proj sf
                       | None => []
                       end)%list.
Proof.
  split; [reflexivity|].
  apply plugin_appends_path_diagnostics. reflexivity.
Defined.

(** ** Further properties of the code *)

Lemma find_loop_error (fs : FileSystem) (fuel : nat) (cur e : string) :
  find_loop fs fuel cur = Throw e -> e = not_found_message.
Proof.
  revert cur; induction fuel as [|fuel IH]; intros cur H; cbn [find_loop] in H.
  - now injection H.
  - destruct (String.eqb cur (dirname cur)); [now injection H|].
    fold (has_marker fs cur) in H.
    destruct (has_marker fs cur); [discriminate|]. now apply (IH (dirname cur)).
Qed.

Lemma find_loop_ok (fs : FileSystem) (fuel : nat) (cur d : string) :
  find_loop fs fuel cur = Ok d ->
  exists k, d = Nat.iter k dirname cur
            /\ has_marker fs d = true
            /\ String.eqb d (dirname d) = false
            /\ forall j, j < k -> has_marker fs (Nat.iter j dirname cur) = false.
Proof.
  revert cur; induction fuel as [|fuel IH]; intros cur H; cbn [find_loop] in H;
    [discriminate|].
  destruct (String.eqb cur (dirname cur)) eqn:Eroot; [discriminate|].
  fold (has_marker fs cur) in H.
  destruct (has_marker fs cur) eqn:Em.
  - injection H as <-. exists 0. repeat split; auto. intros j Hj; lia.
  - destruct (IH _ H) as (k & Hd & Hm & Hr & Hb).
    exists (S k). rewrite Nat.iter_succ_r. repeat split; auto.
    intros [|j] Hj; [exact Em|]. rewrite Nat.iter_succ_r. apply Hb. lia.
Qed.

Lemma getProjectRoot_error (fs : FileSystem) (cwd e : string) :
  getProjectRoot fs cwd = Throw e -> e = not_found_message.
Proof. apply find_loop_error. Qed.

(** ** Normalised absolute paths *)



























(** ** Project-root resolver and validators: further properties *)

(** [findProjectRoot] returns the first directory met by repeated
    [path.dirname] from the start directory ([cwd] when it is omitted)
    that holds a marker: the result holds a marker, is not the filesystem
    root, and no directory visited before it holds one. *)
Theorem findProjectRoot_nearest :
  forall (fs : FileSystem) (cwd startDir d : string),
    findProjectRoot fs cwd startDir = Ok d ->
    exists k,
      d = Nat.iter k dirname (if String.eqb startDir "" then cwd else startDir)
      /\ has_marker fs d = true
      /\ d <> dirname d
      /\ forall j, j < k ->
           has_marker fs
             (Nat.iter j dirname (if String.eqb startDir "" then cwd else startDir))
           = false.
Proof.
  intros fs cwd startDir d H. unfold findProjectRoot in H.
  destruct (find_loop_ok _ _ _ _ H) as (k & H1 & H2 & H3 & H4).
  exists k. repeat split; auto. now apply String.eqb_neq.
Qed.

(** A start directory that holds a marker and is not a fixed point of
    [path.dirname] (so neither ["/"] nor ["."]) is returned itself. *)
Theorem findProjectRoot_start_marked :
  forall (fs : FileSystem) (cwd startDir : string),
    startDir <> "" -> startDir <> dirname startDir ->
    has_marker fs startDir = true ->
    findProjectRoot fs cwd startDir = Ok startDir.
Proof.
  intros fs cwd startDir Hne Hroot Hm. unfold findProjectRoot.
  apply String.eqb_neq in Hne, Hroot. rewrite Hne. cbn [find_loop].
  rewrite Hroot. fold (has_marker fs startDir). now rewrite Hm.
Qed.

(** [isProjectRoot(dir)] is true exactly when the search from [dir]
    succeeds, so it holds for any directory below a marked one, not only
    for the project root itself; when true, [dir] or one of its
    [dirname] ancestors holds a marker. *)
Theorem isProjectRoot_ancestor_marker :
  forall (fs : FileSystem) (cwd dir : string),
    dir <> "" ->
    isProjectRoot fs cwd dir = true ->
    exists k, has_marker fs (Nat.iter k dirname dir) = true.
Proof.
  intros fs cwd dir Hne H. unfold isProjectRoot in H.
  destruct (findProjectRoot fs cwd dir) as [d|e] eqn:E; [|discriminate].
  destruct (findProjectRoot_nearest _ _ _ _ E) as (k & Hd & Hm & _).
  apply String.eqb_neq in Hne. rewrite Hne in Hd. subst d.
  now exists k.
Qed.

Lemma prefix_refl (s : string) : String.prefix s s = true.
Proof.
  induction s as [|c s IH]; simpl; [reflexivity|].
  destruct (ascii_dec c c); congruence.
Qed.

(** Every error a validator throws with a supplied non-empty message
    starts with that message, except the project-root-not-found error. *)
Theorem validators_error_message_prefix :
  forall (v : Validator) (fs : FileSystem) (cwd s msg e : string),
    msg <> "" ->
    run_validator v fs cwd s (Some msg) = Throw e ->
    startsWith e msg = true \/ e = not_found_message.
Proof.
  intros v fs cwd s msg e Hne H. rewrite validator_unfold in H.
  unfold or_default in H. apply String.eqb_neq in Hne. rewrite Hne in H.
  unfold validatePath, startsWith in *.
  destruct (String.eqb (trim s) "").
  { injection H as <-. left. apply prefix_refl. }
  destruct (invalidChars_test s).
  { injection H as <-. left. apply prefix_app. }
  destruct (String.prefix "./" s || String.prefix "../" s); [|discriminate].
  destruct (getProjectRoot fs cwd) as [root|e'] eqn:Er.
  - destruct (String.prefix root (resolve root s)); [discriminate|].
    injection H as <-. left. apply prefix_app.
  - injection H as <-. right. now apply (getProjectRoot_error fs cwd).
Qed.

(** A candidate starting with ["./"] or ["../"] that passes the first
    checks needs the project root: when none is found, each validator
    throws the not-found error. *)
Theorem validators_relative_need_root :
  forall (v : Validator) (fs : FileSystem) (cwd s : string) (m : option string),
    startsWith s "./" || startsWith s "../" = true ->
    invalidChars_test s = false ->
    (forall root, getProjectRoot fs cwd <> Ok root) ->
    run_validator v fs cwd s m = Throw not_found_message.
Proof.
  intros v fs cwd s m Hdot Hc Hnr. rewrite validator_unfold.
  unfold validatePath.
  destruct (startsWith_dot s) as [r ->]; [now apply orb_true_iff|].
  rewrite trim_nonempty_first by reflexivity. rewrite Hc, Hdot.
  destruct (getProjectRoot fs cwd) as [root|e] eqn:Er.
  - exfalso. now apply (Hnr root).
  - simpl. now rewrite (getProjectRoot_error _ _ _ Er).
Qed.

(** A string literal that the checker accepts is non-empty, free of
    forbidden characters, lies inside the project root and exists. *)
Theorem isValidPath_sound :
  forall (lin : PathLinter) (fs : FileSystem) (v : string),
    isValidPath lin fs v = true ->
    let fullPath := if isAbsolute v then v else resolve (projectRoot lin) v in
    v <> "" /\ invalidChars_test v = false
    /\ inside_root (projectRoot lin) fullPath = true /\ fs fullPath = true.
Proof.
  intros lin fs v H fullPath.
  destruct (String.eqb v "") eqn:Ee.
  { unfold isValidPath in H. now rewrite Ee in H. }
  destruct (invalidChars_test v) eqn:Ec.
  { unfold isValidPath in H. now rewrite Ee, Ec in H. }
  destruct (inside_root (projectRoot lin) fullPath) eqn:Ei.
  - destruct (fs fullPath) eqn:Ef.
    + apply String.eqb_neq in Ee. repeat split; auto.
    + rewrite (isValidPath_false lin fs v) in H; [discriminate|].
      right; right; right. exact Ef.
  - rewrite (isValidPath_false lin fs v) in H; [discriminate|].
    right; right; left. exact Ei.
Qed.

(** [checkFile] reports at most one diagnostic per variable declaration
    of the file. *)
Theorem checkFile_at_most_one_per_declaration :
  forall (lin : PathLinter) (fs : FileSystem) (sf : SourceFile),
    List.length (checkFile lin fs sf) <= List.length (var_decls (sf_root sf)).
Proof.
  intros lin fs sf. unfold checkFile. rewrite visit_var_decls.
  induction (var_decls (sf_root sf)) as [|d ds IH]; simpl; [lia|].
  rewrite length_app.
  assert (List.length (visit_here lin fs (sf_fileName sf) d) <= 1).
  { unfold visit_here. destruct (vd_initializer d); simpl; [|lia].
    destruct (checkVariableDeclaration _ _ _ _); simpl; lia. }
  lia.
Qed.

(** Every diagnostic of [run] comes from a non-declaration source file of
    the program and names it, carries code 1001 and the linter's category,
    and has the invalid-path message of some literal. *)
Theorem run_diagnostics_shape :
  forall (lin : PathLinter) (fs : FileSystem) (sourceFiles : list SourceFile),
    Forall (fun d =>
              code_ d = 1001
              /\ category d = getSeverityCategory lin
              /\ (exists v, messageText d = invalid_path_message v)
              /\ exists sf, In sf sourceFiles /\ sf_isDeclarationFile sf = false
                            /\ file d = sf_fileName sf)
      (run lin fs sourceFiles).
Proof.
  intros lin fs sourceFiles. unfold run.
  apply Forall_forall. intros d Hd.
  apply in_flat_map in Hd as [sf [Hin Hd]].
  destruct (sf_isDeclarationFile sf) eqn:Edecl; [contradiction|].
  unfold checkFile in Hd. rewrite visit_var_decls in Hd.
  apply in_flat_map in Hd as [vd [_ Hd]].
  unfold visit_here, checkVariableDeclaration in Hd.
  destruct (vd_initializer vd) as [[v st w|]|]; try contradiction.
  destruct (vd_type vd) as [ty|]; try contradiction.
  destruct (negb (isPathType ty)); try contradiction.
  destruct (negb (isValidPath lin fs v)); try contradiction.
  destruct Hd as [<-|[]]; simpl.
  repeat split; [now exists v|].
  now exists sf.
Qed.

(** The checker, and so the plugin's [create], can only be built inside a
    project: both fail with the not-found error exactly when
    [findProjectRoot()] finds no root from the working directory. *)
Theorem plugin_create_needs_root :
  forall (Opaque : Type) (fs : FileSystem) (cwd : string) (opts : LinterOptions)
         (target : LanguageService Opaque),
    (forall root, getProjectRoot fs cwd <> Ok root) <->
    (new_PathLinter fs cwd opts = Throw not_found_message
     /\ create fs cwd opts target = Throw not_found_message).
Proof.
  intros Opaque fs cwd opts target.
  unfold create, new_PathLinter. fold (getProjectRoot fs cwd).
  destruct (getProjectRoot fs cwd) as [root|e] eqn:Er.
  - split; [intros H; exfalso; now apply (H root)|].
    intros [H _]; discriminate.
  - rewrite (getProjectRoot_error _ _ _ Er). split; [now split|].
    intros _ root; discriminate.
Qed.

(** ** Witnesses of the further properties *)

Lemma findProjectRoot_nearest_witness :
  findProjectRoot fs_proj cwd_proj "/home/proj/src/lib" = Ok "/home/proj"
  /\ exists k,
       "/home/proj" = Nat.iter k dirname "/home/proj/src/lib"
       /\ has_marker fs_proj "/home/proj" = true
       /\ "/home/proj" <> dirname "/home/proj"
       /\ forall j, j < k ->
            has_marker fs_proj (Nat.iter j dirname "/home/proj/src/lib") = false.
Proof.
  assert (H : findProjectRoot fs_proj cwd_proj "/home/proj/src/lib" = Ok "/home/proj")
    by reflexivity.
  split; [exact H|].
  exact (findProjectRoot_nearest fs_proj cwd_proj "/home/proj/src/lib" "/home/proj" H).
Defined.

Lemma findProjectRoot_start_marked_witness :
  findProjectRoot fs_proj "/" "/home/proj" = Ok "/home/proj".
Proof.
  apply findProjectRoot_start_marked; [discriminate|discriminate|reflexivity].
Defined.

Lemma isProjectRoot_ancestor_marker_witness :
  isProjectRoot fs_proj cwd_proj "/home/proj/src" = true
  /\ exists k, has_marker fs_proj (Nat.iter k dirname "/home/proj/src") = true.
Proof.
  assert (H : isProjectRoot fs_proj cwd_proj "/home/proj/src" = true)
    by reflexivity.
  split; [exact H|].
  exact (isProjectRoot_ancestor_marker fs_proj cwd_proj "/home/proj/src"
           ltac:(discriminate) H).
Defined.

Lemma validators_error_message_prefix_witness :
  run_validator VFile fs_proj cwd_proj "a<b" (Some "bad")
  = Throw "bad: contains invalid characters"
  /\ (startsWith "bad: contains invalid characters" "bad" = true
      \/ "bad: contains invalid characters" = not_found_message).
Proof.
  assert (H : run_validator VFile fs_proj cwd_proj "a<b" (Some "bad")
              = Throw "bad: contains invalid characters") by reflexivity.
  split; [exact H|].
  exact (validators_error_message_prefix VFile fs_proj cwd_proj "a<b" "bad"
           "bad: contains invalid characters" ltac:(discriminate) H).
Defined.

Lemma validators_relative_need_root_witness :
  run_validator VAny fs_top "/home/u" "./src" None = Throw not_found_message.
Proof.
  apply validators_relative_need_root; [reflexivity|reflexivity|].
  intros root H. vm_compute in H. discriminate.
Defined.

Lemma isValidPath_sound_witness :
  isValidPath lin_proj fs_proj "src" = true
  /\ "src" <> "" /\ invalidChars_test "src" = false
  /\ inside_root "/home/proj" (resolve "/home/proj" "src") = true
  /\ fs_proj (resolve "/home/proj" "src") = true.
Proof.
  assert (H : isValidPath lin_proj fs_proj "src" = true) by reflexivity.
  split; [exact H|].
  exact (isValidPath_sound lin_proj fs_proj "src" H).
Defined.

Lemma plugin_create_needs_root_witness :
  new_PathLinter fs_top "/home/u" {| severity := None |} = Throw not_found_message
  /\ create fs_top "/home/u" {| severity := None |} svc_proj = Throw not_found_message.
Proof.
  apply (plugin_create_needs_root nat fs_top "/home/u" {| severity := None |} svc_proj).
  intros root H. vm_compute in H. discriminate.
Defined.
